(** * personal-vault-pro: the synchronised collection pages

  A shallow embedding of the collection pages of the application
  (tasks, notes, credentials) and of the helpers they rely on.  React
  state is passed explicitly, asynchronous handlers are values of the
  type [Async] (what is done before the [await], what is sent to the
  remote collection, and how the handler continues once the outcomes
  are known), and the remote document collection is a small fake that
  answers the calls the pages make. *)

From Stdlib Require Import ZArith List String Ascii Bool Lia Permutation Sorted.
From Stdlib Require Import DecimalString DecimalNat DecimalFacts.
Import ListNotations.

Local Open Scope string_scope.
Local Open Scope list_scope.
Local Open Scope Z_scope.

(* ===================================================================== *)
(** * JavaScript built-ins used by the pages *)
(* ===================================================================== *)

Module JS.

Section Arrays.
Context {A : Type}.

(** [Array.prototype.findIndex]: index of the first element that
    satisfies [p], and [-1] when there is none. *)
Fixpoint findIndexFrom (p : A -> bool) (l : list A) (i : Z) : Z :=
  match l with
  | [] => -1
  | x :: r => if p x then i else findIndexFrom p r (i + 1)
  end.

Definition findIndex (p : A -> bool) (l : list A) : Z :=
  findIndexFrom p l 0.

(** The start position of [splice]: a negative start counts from the
    end, and the result is clamped to [0 .. length]. *)
Definition spliceStart (len start : Z) : nat :=
  Z.to_nat (if start <? 0 then Z.max (len + start) 0 else Z.min start len).

(** [Array.prototype.splice (start, deleteCount, ...items)]: the
    removed elements and the array after the call. *)
Definition splice (l : list A) (start deleteCount : Z) (items : list A)
  : list A * list A :=
  let len := Z.of_nat (List.length l) in
  let s := spliceStart len start in
  let d := Z.to_nat (Z.min (Z.max deleteCount 0) (len - Z.of_nat s)) in
  (firstn d (skipn s l), firstn s l ++ items ++ skipn (s + d)%nat l).

(** [Array.prototype.sort (cmp)], which is stable: an element stays
    in front of the later elements it ties with.  [cmp a b < 0] puts
    [a] first. *)
Fixpoint sortInsert (cmp : A -> A -> Z) (x : A) (l : list A) : list A :=
  match l with
  | [] => [x]
  | y :: r => if cmp x y <=? 0 then x :: y :: r else y :: sortInsert cmp x r
  end.

Fixpoint sort (cmp : A -> A -> Z) (l : list A) : list A :=
  match l with
  | [] => []
  | x :: r => sortInsert cmp x (sort cmp r)
  end.

(** [Promise.all] over the outcomes of a batch: fulfilled when every
    member is. *)
Definition every (p : A -> bool) (l : list A) : bool := forallb p l.

End Arrays.

(** [arrayMove] of @dnd-kit/sortable:
<<
    const newArray = array.slice();
    newArray.splice(to < 0 ? newArray.length + to : to, 0,
                    newArray.splice(from, 1)[0]);
>>
    The position is computed first, on the full length; then the
    element is taken out, and put back.  When nothing is taken out,
    [undefined] is put in: array slots are [option A], with [None] for
    [undefined]. *)
Definition arrayMove {A : Type} (array : list A) (from to : Z)
  : list (option A) :=
  let newArray := map Some array in
  let position :=
    if to <? 0 then Z.of_nat (List.length newArray) + to else to in
  let '(removed, newArray1) := splice newArray from 1 [] in
  let moved := nth 0 removed None in
  snd (splice newArray1 position 0 [moved]).

(** [Array.prototype.map] with a callback that also takes the index. *)
Fixpoint mapFrom {A B : Type} (f : A -> Z -> B) (l : list A) (i : Z) : list B :=
  match l with
  | [] => []
  | x :: r => f x i :: mapFrom f r (i + 1)
  end.

Definition mapi {A B : Type} (f : A -> Z -> B) (l : list A) : list B :=
  mapFrom f l 0.

(** An array without [undefined] slots, read as a list of values. *)
Fixpoint defined {A : Type} (l : list (option A)) : option (list A) :=
  match l with
  | [] => Some []
  | None :: _ => None
  | Some x :: r =>
      match defined r with
      | Some r' => Some (x :: r')
      | None => None
      end
  end.

(** A string the user types, as JavaScript holds it: the list of its
    UTF-16 code units. *)
Definition Text := list N.

(** The code units of an ASCII literal. *)
Definition text (s : string) : Text :=
  map N_of_ascii (list_ascii_of_string s).

(** The white space and line terminators [String.prototype.trim]
    strips: U+0009 to U+000D, U+0020, U+00A0, U+1680, U+2000 to U+200A,
    U+2028, U+2029, U+202F, U+205F, U+3000 and U+FEFF. *)
Definition isWhiteSpace (c : N) : bool :=
  (((9 <=? c) && (c <=? 13))
   || (c =? 32) || (c =? 160) || (c =? 5760)
   || ((8192 <=? c) && (c <=? 8202))
   || (c =? 8232) || (c =? 8233) || (c =? 8239) || (c =? 8287)
   || (c =? 12288) || (c =? 65279))%N.

Fixpoint trimStart (l : Text) : Text :=
  match l with
  | [] => []
  | c :: r => if isWhiteSpace c then trimStart r else l
  end.

(** [String.prototype.trim] *)
Definition trim (s : Text) : Text :=
  rev (trimStart (rev (trimStart s))).

(** Truthiness of a typed text: the empty string is falsy. *)
Definition truthyText (s : Text) : bool :=
  match s with [] => false | _ :: _ => true end.

(** Truthiness of a string: the empty string is falsy. *)
Definition truthy (s : string) : bool :=
  match s with EmptyString => false | String _ _ => true end.

End JS.

(* ===================================================================== *)
(** * The remote document service and asynchronous handlers *)
(* ===================================================================== *)

Module Sync.

(** A JavaScript [Date]: milliseconds since the epoch ([getTime]). *)
Definition Date := Z.

(** A stored timestamp of the document service. *)
Record Timestamp := { seconds : Z; nanoseconds : Z }.

(** [Timestamp.toDate]: the milliseconds, truncated. *)
Definition toDate (t : Timestamp) : Date :=
  Z.quot (seconds t * 1000000000 + nanoseconds t) 1000000.

(** [Timestamp.fromDate]: how a [Date] that a client writes is stored. *)
Definition fromDate (d : Date) : Timestamp :=
  {| seconds := d / 1000; nanoseconds := (d mod 1000) * 1000000 |}.

(** A time written into a document: a [Date] made by the client, or
    the sentinel that asks the service to put its own time. *)
Inductive TimeValue : Type :=
| ClientDate (d : Date)
| ServerTimestamp.

Definition storeTime (serverNow : Date) (v : TimeValue) : Timestamp :=
  match v with
  | ClientDate d => fromDate d
  | ServerTimestamp => fromDate serverNow
  end.

(** The signed-in user of the auth store. *)
Record User := { uid : string }.

(** How the promise of one remote call settles. *)
Inductive Outcome : Type := Fulfilled | Rejected.

Definition fulfilled (o : Outcome) : bool :=
  match o with Fulfilled => true | Rejected => false end.

(** The coarse error kinds of the synchronisation layer. *)
Inductive ErrorKind : Type :=
| ValidationError | Unauthenticated | NotFound | UploadError | SyncError.

(** A transient notification ([toast.success], [toast.error]). *)
Inductive Toast : Type :=
| ToastSuccess (message : string)
| ToastError (message : string).

Definition isError (t : Toast) : bool :=
  match t with ToastError _ => true | ToastSuccess _ => false end.

(** What the subscription effect of a page does. *)
Inductive Subscription : Type :=
| NoSubscription
| Listening (collection : string) (owner : string)
| SubscribeThrows (e : ErrorKind).

(** How a handler ends: its promise resolves, or it fails. *)
Inductive Completion : Type :=
| Resolves
| Throws (e : ErrorKind).

Section Handlers.
Variables Effect Call : Type.

(** An asynchronous handler: it runs to its end, or it performs some
    effects, sends a batch of remote calls and continues when their
    outcomes are known (a single [await], or [await Promise.all]). *)
Inductive Async : Type :=
| Return (effects : list Effect) (c : Completion)
| Await (effects : list Effect) (calls : list Call)
        (k : list Outcome -> Async).

Record Trace := {
  effects : list Effect;
  calls : list Call;
  completion : Completion
}.

(** Running a handler when the remote answers a batch with [answer]. *)
Fixpoint run (answer : list Call -> list Outcome) (a : Async) : Trace :=
  match a with
  | Return e c => {| effects := e; calls := []; completion := c |}
  | Await e cs k =>
      let t := run answer (k (answer cs)) in
      {| effects := e ++ effects t;
         calls := cs ++ calls t;
         completion := completion t |}
  end.

(** The handler ends by failing with [e]. *)
Definition failsWith (answer : list Call -> list Outcome) (a : Async)
           (e : ErrorKind) : Prop :=
  completion (run answer a) = Throws e.

End Handlers.

Arguments Return {Effect Call} effects c.
Arguments Await {Effect Call} effects calls k.
Arguments run {Effect Call} answer a.
Arguments failsWith {Effect Call} answer a e.
Arguments effects {Effect Call} t.
Arguments calls {Effect Call} t.
Arguments completion {Effect Call} t.

End Sync.

(* ===================================================================== *)
(** * Tasks page *)
(* ===================================================================== *)

Module Todos.
Import Sync.

(** The fields of a stored task document.  [order] and [createdAt]
    may be missing: the page reads them with [|| 0] and [?.]. *)
Record TodoData := {
  data_userId : string;
  data_text : JS.Text;
  data_completed : bool;
  data_category : string;
  data_dueDate : option string;
  data_order : option Z;
  data_createdAt : option Timestamp
}.

(** A document of a snapshot event: its key and its fields. *)
Record Doc := { doc_id : string; doc_data : TodoData }.

(** A task as the page holds it: [{ id: doc.id, ...doc.data(),
    createdAt: doc.data().createdAt?.toDate() }]. *)
Record Todo := {
  id : string;
  userId : string;
  text : JS.Text;
  completed : bool;
  category : string;
  dueDate : option string;
  order : option Z;
  createdAt : option Date
}.

(** The fields [handleAdd] writes. *)
Record NewTodo := {
  new_userId : string;
  new_text : JS.Text;
  new_completed : bool;
  new_category : string;
  new_dueDate : option string;
  new_order : Z;
  new_createdAt : TimeValue
}.

(** The partial updates the page sends. *)
Inductive Patch : Type :=
| PatchCompleted (b : bool)
| PatchOrder (index : Z).

Inductive Call : Type :=
| AddDoc (collection : string) (fields : NewTodo)
| UpdateDoc (collection : string) (key : string) (patch : Patch)
| DeleteDoc (collection : string) (key : string).

(** The React state of the page. *)
Record State := {
  user : option User;
  todos : list Todo;
  newTodo : JS.Text;
  newCategory : string;
  newDueDate : string;
  filterCategory : string;
  showCompleted : bool
}.

Inductive Effect : Type :=
| SetTodos (l : list Todo)
| SetNewTodo (s : JS.Text)
| SetNewDueDate (s : string)
| Notify (t : Toast).

Definition applyEffect (st : State) (e : Effect) : State :=
  match e with
  | SetTodos l =>
      {| user := user st; todos := l; newTodo := newTodo st;
         newCategory := newCategory st; newDueDate := newDueDate st;
         filterCategory := filterCategory st; showCompleted := showCompleted st |}
  | SetNewTodo s =>
      {| user := user st; todos := todos st; newTodo := s;
         newCategory := newCategory st; newDueDate := newDueDate st;
         filterCategory := filterCategory st; showCompleted := showCompleted st |}
  | SetNewDueDate s =>
      {| user := user st; todos := todos st; newTodo := newTodo st;
         newCategory := newCategory st; newDueDate := s;
         filterCategory := filterCategory st; showCompleted := showCompleted st |}
  | Notify _ => st
  end.

Definition applyEffects (st : State) (es : list Effect) : State :=
  fold_left applyEffect es st.

(** The notifications among the effects. *)
Definition toasts (es : list Effect) : list Toast :=
  flat_map (fun e => match e with Notify t => [t] | _ => [] end) es.

(** ** The subscription *)

(** The body of the subscription effect: nothing without a user,
    otherwise a listener on the user's tasks. *)
Definition subscribeEffect (user : option User) : Subscription :=
  match user with
  | None => NoSubscription
  | Some u => Listening "todos" (uid u)
  end.

Definition toLocal (doc : Doc) : Todo :=
  let d := doc_data doc in
  {| id := doc_id doc;
     userId := data_userId d;
     text := data_text d;
     completed := data_completed d;
     category := data_category d;
     dueDate := data_dueDate d;
     order := data_order d;
     createdAt := option_map toDate (data_createdAt d) |}.

(** [a.order || 0] *)
Definition orderOr0 (t : Todo) : Z :=
  match order t with Some z => z | None => 0 end.

(** [(a, b) => (a.order || 0) - (b.order || 0)] *)
Definition byOrder (a b : Todo) : Z := orderOr0 a - orderOr0 b.

(** The snapshot callback. *)
Definition onSnapshot (docs : list Doc) : list Effect :=
  let todosData := map toLocal docs in
  [SetTodos (JS.sort byOrder todosData)].

(** ** The handlers *)

Definition Handler := Async Effect Call.

Definition handleAdd (st : State) (now : Date) : Handler :=
  match user st with
  | None => Return [] Resolves
  | Some u =>
      if negb (JS.truthyText (JS.trim (newTodo st))) then Return [] Resolves
      else
        Await []
          [AddDoc "todos"
             {| new_userId := uid u;
                new_text := JS.trim (newTodo st);
                new_completed := false;
                new_category := newCategory st;
                new_dueDate :=
                  if JS.truthy (newDueDate st) then Some (newDueDate st) else None;
                new_order := Z.of_nat (List.length (todos st));
                new_createdAt := ClientDate now |}]
          (fun outcomes =>
             if JS.every fulfilled outcomes
             then Return [SetNewTodo []; SetNewDueDate "";
                          Notify (ToastSuccess "Task added")] Resolves
             else Return [Notify (ToastError "Failed to add task")] Resolves)
  end.

Definition toggleTodo (key : string) (completed : bool) : Handler :=
  Await [] [UpdateDoc "todos" key (PatchCompleted (negb completed))]
    (fun outcomes =>
       if JS.every fulfilled outcomes then Return [] Resolves
       else Return [Notify (ToastError "Failed to update task")] Resolves).

Definition deleteTodo (key : string) : Handler :=
  Await [] [DeleteDoc "todos" key]
    (fun outcomes =>
       if JS.every fulfilled outcomes
       then Return [Notify (ToastSuccess "Task deleted")] Resolves
       else Return [Notify (ToastError "Failed to delete task")] Resolves).

(** The end of a drag: the dragged item and the item it is dropped on. *)
Record DragEndEvent := { active : string; over : option string }.

(** The remote calls of a reorder: one per task, with its index. *)
Definition orderUpdates (newOrder : list Todo) : list Call :=
  JS.mapi (fun todo index => UpdateDoc "todos" (id todo) (PatchOrder index)) newOrder.

(** [handleDragEnd].  The result is [None] when the moved array holds
    an [undefined] slot, which leaves the [Todo[]] state this
    embedding describes; [handleDragEnd_total] shows that this only
    happens on an empty list. *)
Definition handleDragEnd (st : State) (event : DragEndEvent) : option Handler :=
  match over event with
  | None => Some (Return [] Resolves)
  | Some overId =>
      if String.eqb (active event) overId then Some (Return [] Resolves)
      else
        let oldIndex := JS.findIndex (fun t => String.eqb (id t) (active event)) (todos st) in
        let newIndex := JS.findIndex (fun t => String.eqb (id t) overId) (todos st) in
        match JS.defined (JS.arrayMove (todos st) oldIndex newIndex) with
        | None => None
        | Some newOrder =>
            Some (Await [SetTodos newOrder] (orderUpdates newOrder)
                    (fun outcomes =>
                       if JS.every fulfilled outcomes then Return [] Resolves
                       else Return [Notify (ToastError "Failed to reorder tasks")]
                                   Resolves))
        end
  end.

(** ** A fake remote collection *)

(** The [todos] collection of the service: its documents, and how many
    keys it has given out. *)
Record Remote := { docs : list Doc; issued : nat }.

Definition autoId (n : nat) : string :=
  ("doc" ++ NilZero.string_of_uint (Nat.to_uint n))%string.

Definition stored (serverNow : Date) (f : NewTodo) : TodoData :=
  {| data_userId := new_userId f;
     data_text := new_text f;
     data_completed := new_completed f;
     data_category := new_category f;
     data_dueDate := new_dueDate f;
     data_order := Some (new_order f);
     data_createdAt := Some (storeTime serverNow (new_createdAt f)) |}.

Definition applyPatch (p : Patch) (d : TodoData) : TodoData :=
  match p with
  | PatchCompleted b =>
      {| data_userId := data_userId d; data_text := data_text d;
         data_completed := b; data_category := data_category d;
         data_dueDate := data_dueDate d; data_order := data_order d;
         data_createdAt := data_createdAt d |}
  | PatchOrder i =>
      {| data_userId := data_userId d; data_text := data_text d;
         data_completed := data_completed d; data_category := data_category d;
         data_dueDate := data_dueDate d; data_order := Some i;
         data_createdAt := data_createdAt d |}
  end.

Definition hasDoc (key : string) (r : Remote) : bool :=
  existsb (fun d => String.eqb (doc_id d) key) (docs r).

(** The service answering one call: a create stores the fields under
    a new key, an update of a missing key is rejected, a delete of a
    missing key succeeds.  The page only calls its own collection,
    whose name is not looked at. *)
Definition serve (serverNow : Date) (r : Remote) (c : Call) : Remote * Outcome :=
  match c with
  | AddDoc _ f =>
      ({| docs := docs r ++ [{| doc_id := autoId (issued r);
                                doc_data := stored serverNow f |}];
          issued := S (issued r) |}, Fulfilled)
  | UpdateDoc _ key p =>
      if hasDoc key r
      then ({| docs := map (fun d => if String.eqb (doc_id d) key
                                     then {| doc_id := doc_id d;
                                             doc_data := applyPatch p (doc_data d) |}
                                     else d) (docs r);
               issued := issued r |}, Fulfilled)
      else (r, Rejected)
  | DeleteDoc _ key =>
      ({| docs := filter (fun d => negb (String.eqb (doc_id d) key)) (docs r);
          issued := issued r |}, Fulfilled)
  end.

Fixpoint serveAll (serverNow : Date) (r : Remote) (cs : list Call)
  : Remote * list Outcome :=
  match cs with
  | [] => (r, [])
  | c :: rest =>
      let '(r1, o) := serve serverNow r c in
      let '(r2, os) := serveAll serverNow r1 rest in
      (r2, o :: os)
  end.

(** The documents a listener of [owner] is sent. *)
Definition runQuery (owner : string) (r : Remote) : list Doc :=
  filter (fun d => String.eqb (data_userId (doc_data d)) owner) (docs r).

(** ** The page together with the remote *)

Record System := { remote : Remote; page : State }.

(** The next subscription event is delivered to the page. *)
Definition deliver (sys : System) : System :=
  match subscribeEffect (user (page sys)) with
  | Listening _ owner =>
      {| remote := remote sys;
         page := applyEffects (page sys) (onSnapshot (runQuery owner (remote sys))) |}
  | _ => sys
  end.

(** A handler run against the fake remote. *)
Fixpoint perform (serverNow : Date) (h : Handler) (sys : System) : System :=
  match h with
  | Return es _ => {| remote := remote sys; page := applyEffects (page sys) es |}
  | Await es cs k =>
      let '(r, outcomes) := serveAll serverNow (remote sys) cs in
      perform serverNow (k outcomes)
        {| remote := r; page := applyEffects (page sys) es |}
  end.

(** ** What the user does, each time followed by the next event *)

(** Typing into the task input ([onChange]). *)
Definition typeNewTodo (s : JS.Text) (sys : System) : System :=
  {| remote := remote sys; page := applyEffect (page sys) (SetNewTodo s) |}.

Definition create (s : JS.Text) (now : Date) (sys : System) : System :=
  let sys1 := typeNewTodo s sys in
  deliver (perform now (handleAdd (page sys1) now) sys1).

Definition delete (key : string) (now : Date) (sys : System) : System :=
  deliver (perform now (deleteTodo key) sys).

Definition reorder (event : DragEndEvent) (now : Date) (sys : System) : System :=
  match handleDragEnd (page sys) event with
  | Some h => deliver (perform now h sys)
  | None => sys
  end.

(** A signed-in user in front of an empty collection. *)
Definition start (owner : string) : System :=
  {| remote := {| docs := []; issued := 0 |};
     page := {| user := Some {| uid := owner |}; todos := [];
                newTodo := []; newCategory := "Personal"; newDueDate := "";
                filterCategory := "all"; showCompleted := true |} |}.

(** The [order] values of the tasks the page shows. *)
Definition orders (sys : System) : list (option Z) :=
  map order (todos (page sys)).

(** ** What the page shows *)

(** The callback of [todos.filter] for [filteredTodos]. *)
Definition matchesFilter (st : State) (todo : Todo) : bool :=
  let matchesCategory :=
    String.eqb (filterCategory st) "all"
    || String.eqb (category todo) (filterCategory st) in
  let matchesCompleted := showCompleted st || negb (completed todo) in
  matchesCategory && matchesCompleted.

Definition filteredTodos (st : State) : list Todo :=
  filter (matchesFilter st) (todos st).

Definition completedCount (st : State) : nat :=
  List.length (filter completed (todos st)).

Definition totalCount (st : State) : nat := List.length (todos st).

(** The callbacks a row is given: [onToggle] and [onDelete]. *)
Definition onToggle (todo : Todo) : Handler := toggleTodo (id todo) (completed todo).

Definition onDelete (todo : Todo) : Handler := deleteTodo (id todo).

(** Ticking the box of a row, up to the next event. *)
Definition toggle (todo : Todo) (now : Date) (sys : System) : System :=
  deliver (perform now (onToggle todo) sys).

End Todos.

(* ===================================================================== *)
(** * Notes page *)
(* ===================================================================== *)

Module Notes.
Import Sync.

Record NoteData := {
  data_userId : string;
  data_title : string;
  data_content : string;
  data_tags : list string;
  data_createdAt : option Timestamp;
  data_updatedAt : option Timestamp
}.

Record Doc := { doc_id : string; doc_data : NoteData }.

(** A note as the page holds it. *)
Record Note := {
  id : string;
  note_userId : string;
  note_title : string;
  note_content : string;
  note_tags : list string;
  createdAt : option Date;
  updatedAt : option Date
}.

Record NewNote := {
  new_userId : string;
  new_title : string;
  new_content : string;
  new_tags : list string;
  new_createdAt : TimeValue;
  new_updatedAt : TimeValue
}.

Record NotePatch := {
  patch_title : string;
  patch_content : string;
  patch_tags : list string;
  patch_updatedAt : TimeValue
}.

Inductive Call : Type :=
| AddDoc (collection : string) (fields : NewNote)
| UpdateDoc (collection : string) (key : string) (patch : NotePatch)
| DeleteDoc (collection : string) (key : string).

Record State := {
  user : option User;
  notes : list Note;
  isDialogOpen : bool;
  editingId : option string;
  title : string;
  content : string;
  tagInput : string;
  tags : list string
}.

Inductive Effect : Type :=
| SetNotes (l : list Note)
| SetIsDialogOpen (b : bool)
| SetEditingId (k : option string)
| SetTitle (s : string)
| SetContent (s : string)
| SetTagInput (s : string)
| SetTags (l : list string)
| Notify (t : Toast).

Definition applyEffect (st : State) (e : Effect) : State :=
  match e with
  | SetNotes l =>
      {| user := user st; notes := l; isDialogOpen := isDialogOpen st;
         editingId := editingId st; title := title st; content := content st;
         tagInput := tagInput st; tags := tags st |}
  | SetIsDialogOpen b =>
      {| user := user st; notes := notes st; isDialogOpen := b;
         editingId := editingId st; title := title st; content := content st;
         tagInput := tagInput st; tags := tags st |}
  | SetEditingId k =>
      {| user := user st; notes := notes st; isDialogOpen := isDialogOpen st;
         editingId := k; title := title st; content := content st;
         tagInput := tagInput st; tags := tags st |}
  | SetTitle s =>
      {| user := user st; notes := notes st; isDialogOpen := isDialogOpen st;
         editingId := editingId st; title := s; content := content st;
         tagInput := tagInput st; tags := tags st |}
  | SetContent s =>
      {| user := user st; notes := notes st; isDialogOpen := isDialogOpen st;
         editingId := editingId st; title := title st; content := s;
         tagInput := tagInput st; tags := tags st |}
  | SetTagInput s =>
      {| user := user st; notes := notes st; isDialogOpen := isDialogOpen st;
         editingId := editingId st; title := title st; content := content st;
         tagInput := s; tags := tags st |}
  | SetTags l =>
      {| user := user st; notes := notes st; isDialogOpen := isDialogOpen st;
         editingId := editingId st; title := title st; content := content st;
         tagInput := tagInput st; tags := l |}
  | Notify _ => st
  end.

Definition applyEffects (st : State) (es : list Effect) : State :=
  fold_left applyEffect es st.

Definition subscribeEffect (user : option User) : Subscription :=
  match user with
  | None => NoSubscription
  | Some u => Listening "notes" (uid u)
  end.

Definition toLocal (doc : Doc) : Note :=
  let d := doc_data doc in
  {| id := doc_id doc;
     note_userId := data_userId d;
     note_title := data_title d;
     note_content := data_content d;
     note_tags := data_tags d;
     createdAt := option_map toDate (data_createdAt d);
     updatedAt := option_map toDate (data_updatedAt d) |}.

(** [n.updatedAt?.getTime() || 0] *)
Definition updatedOr0 (n : Note) : Z :=
  match updatedAt n with Some t => t | None => 0 end.

(** [(a, b) => (b.updatedAt?.getTime() || 0) - (a.updatedAt?.getTime() || 0)] *)
Definition byUpdatedDesc (a b : Note) : Z := updatedOr0 b - updatedOr0 a.

Definition onSnapshot (docs : list Doc) : list Effect :=
  let notesData := map toLocal docs in
  [SetNotes (JS.sort byUpdatedDesc notesData)].

Definition Handler := Async Effect Call.

Definition resetForm : list Effect :=
  [SetTitle ""; SetContent ""; SetTags []; SetTagInput ""; SetEditingId None].

(** [if (editingId)]: a key that is present and not the empty string. *)
Definition editing (st : State) : option string :=
  match editingId st with
  | Some k => if JS.truthy k then Some k else None
  | None => None
  end.

(** [handleSubmit]; [now] and [later] are the two readings of the
    client's clock in the create branch. *)
Definition handleSubmit (st : State) (now later : Date) : Handler :=
  match user st with
  | None => Return [] Resolves
  | Some u =>
      if negb (JS.truthy (title st)) then Return [] Resolves
      else
        match editing st with
        | Some key =>
            Await []
              [UpdateDoc "notes" key
                 {| patch_title := title st; patch_content := content st;
                    patch_tags := tags st; patch_updatedAt := ClientDate now |}]
              (fun outcomes =>
                 if JS.every fulfilled outcomes
                 then Return (Notify (ToastSuccess "Note updated") :: resetForm
                              ++ [SetIsDialogOpen false]) Resolves
                 else Return [Notify (ToastError "Failed to save note")] Resolves)
        | None =>
            Await []
              [AddDoc "notes"
                 {| new_userId := uid u; new_title := title st;
                    new_content := content st; new_tags := tags st;
                    new_createdAt := ClientDate now;
                    new_updatedAt := ClientDate later |}]
              (fun outcomes =>
                 if JS.every fulfilled outcomes
                 then Return (Notify (ToastSuccess "Note created") :: resetForm
                              ++ [SetIsDialogOpen false]) Resolves
                 else Return [Notify (ToastError "Failed to save note")] Resolves)
        end
  end.

Definition handleDelete (key : string) : Handler :=
  Await [] [DeleteDoc "notes" key]
    (fun outcomes =>
       if JS.every fulfilled outcomes
       then Return [Notify (ToastSuccess "Note deleted")] Resolves
       else Return [Notify (ToastError "Failed to delete note")] Resolves).

End Notes.

(* ===================================================================== *)
(** * Credentials page *)
(* ===================================================================== *)

Module Passwords.
Import Sync.

(** The body of the subscription effect of this page. *)
Definition subscribeEffect (user : option User) : Subscription :=
  match user with
  | None => NoSubscription
  | Some u => Listening "passwords" (uid u)
  end.

(** ** The password generator *)






Section Engine.

(** The largest length the typed-array constructor of the engine
    accepts. *)
Variable maxLength : Z.




End Engine.


End Passwords.

(* ===================================================================== *)
(** * Vocabulary of the specification *)
(* ===================================================================== *)

Module Spec.
Import Sync.

(** Array-move in the words of the specification: the element at index
    [i] is removed and put back at index [j]. *)
Definition removeAt {A : Type} (i : nat) (l : list A) : list A :=
  firstn i l ++ skipn (S i) l.

Definition insertAt {A : Type} (j : nat) (x : A) (l : list A) : list A :=
  firstn j l ++ x :: skipn j l.

Definition moveElement {A : Type} (l : list A) (i j : nat) : list A :=
  match nth_error l i with
  | Some x => insertAt j x (removeAt i l)
  | None => l
  end.

(** One partial update per task, setting its [order] to its rank
    [0 .. n-1] in the list. *)
Definition rankUpdates (l : list Todos.Todo) : list Todos.Call :=
  map (fun rx => Todos.UpdateDoc "todos" (Todos.id (snd rx))
                   (Todos.PatchOrder (Z.of_nat (fst rx))))
      (combine (seq 0 (List.length l)) l).

(** The batch of remote calls a handler waits for first. *)
Definition batch {Effect Call : Type} (h : Async Effect Call) : list Call :=
  match h with
  | Return _ _ => []
  | Await _ cs _ => cs
  end.

(** An answer gives every call of a batch its outcome. *)
Definition answersAll {Call : Type} (answer : list Call -> list Outcome) : Prop :=
  forall cs, List.length (answer cs) = List.length cs.

(** A handler of the tasks page that leaves the list of tasks as it is,
    whatever the remote answers and whatever the state is by then. *)
Definition keepsTodos (h : Todos.Handler) : Prop :=
  forall answer cur,
    Todos.todos (Todos.applyEffects cur (effects (run answer h))) = Todos.todos cur.

Definition keepsNotes (h : Notes.Handler) : Prop :=
  forall answer cur,
    Notes.notes (Notes.applyEffects cur (effects (run answer h))) = Notes.notes cur.

(** The times written by the creates among some calls. *)
Definition createTimes (cs : list Todos.Call) : list TimeValue :=
  flat_map (fun c => match c with
                     | Todos.AddDoc _ f => [Todos.new_createdAt f]
                     | _ => []
                     end) cs.

(** Every key of the remote collection is one the service gave out,
    and no key is used twice. *)
Definition keysIssued (r : Todos.Remote) : Prop :=
  NoDup (map Todos.doc_id (Todos.docs r))
  /\ Forall (fun d => exists k, (k < Todos.issued r)%nat
                                /\ Todos.doc_id d = Todos.autoId k)
            (Todos.docs r).

(** The states of the tasks page at rest: what a signed-in user reaches
    by creating, deleting and reordering, each time up to the next
    event. *)
Inductive AtRest (owner : string) : Todos.System -> Prop :=
| rest_start : AtRest owner (Todos.start owner)
| rest_create s now sys :
    AtRest owner sys -> AtRest owner (Todos.create s now sys)
| rest_delete key now sys :
    AtRest owner sys -> AtRest owner (Todos.delete key now sys)
| rest_reorder event now sys :
    AtRest owner sys -> AtRest owner (Todos.reorder event now sys).

(** The page shows what the remote holds for the owner. *)
Definition inSync (owner : string) (sys : Todos.System) : Prop :=
  Todos.todos (Todos.page sys)
  = JS.sort Todos.byOrder
      (map Todos.toLocal (Todos.runQuery owner (Todos.remote sys))).

(** A task with another [order], or another [completed]. *)
Definition withOrder (r : Z) (t : Todos.Todo) : Todos.Todo :=
  {| Todos.id := Todos.id t; Todos.userId := Todos.userId t;
     Todos.text := Todos.text t; Todos.completed := Todos.completed t;
     Todos.category := Todos.category t; Todos.dueDate := Todos.dueDate t;
     Todos.order := Some r; Todos.createdAt := Todos.createdAt t |}.

Definition withCompleted (b : bool) (t : Todos.Todo) : Todos.Todo :=
  {| Todos.id := Todos.id t; Todos.userId := Todos.userId t;
     Todos.text := Todos.text t; Todos.completed := b;
     Todos.category := Todos.category t; Todos.dueDate := Todos.dueDate t;
     Todos.order := Todos.order t; Todos.createdAt := Todos.createdAt t |}.

(** The tasks of a list, each with its rank [0 .. n-1] as [order]. *)
Definition ranked (l : list Todos.Todo) : list Todos.Todo :=
  JS.mapi (fun t r => withOrder r t) l.

(** The rank of the key [k] in the list [l], counted from [r]. *)
Fixpoint rankFrom (l : list Todos.Todo) (k : string) (r : Z) : option Z :=
  match l with
  | [] => None
  | t :: rest =>
      if String.eqb (Todos.id t) k then Some r else rankFrom rest k (r + 1)
  end.

(** A task, and a document, with its rank in [l] as [order] when its key
    is in [l]. *)
Definition rerank (l : list Todos.Todo) (r : Z) (t : Todos.Todo) : Todos.Todo :=
  match rankFrom l (Todos.id t) r with
  | Some i => withOrder i t
  | None => t
  end.

Definition rerankDoc (l : list Todos.Todo) (r : Z) (d : Todos.Doc) : Todos.Doc :=
  match rankFrom l (Todos.doc_id d) r with
  | Some i => {| Todos.doc_id := Todos.doc_id d;
                 Todos.doc_data :=
                   Todos.applyPatch (Todos.PatchOrder i) (Todos.doc_data d) |}
  | None => d
  end.

(** The task a create of [s] makes out of the page [st], under the key
    [key] and at the client time [now]. *)
Definition created (st : Todos.State) (owner key : string) (s : JS.Text) (now : Date)
  : Todos.Todo :=
  {| Todos.id := key; Todos.userId := owner; Todos.text := JS.trim s;
     Todos.completed := false; Todos.category := Todos.newCategory st;
     Todos.dueDate := if JS.truthy (Todos.newDueDate st)
                      then Some (Todos.newDueDate st) else None;
     Todos.order := Some (Z.of_nat (List.length (Todos.todos st)));
     Todos.createdAt := Some now |}.

(** Tasks listed by increasing [order || 0]. *)
Definition inOrder (l : list Todos.Todo) : Prop :=
  StronglySorted (fun a b => Todos.orderOr0 a <= Todos.orderOr0 b) l.

(** Notes listed by decreasing [updatedAt]. *)
Definition newestFirst (l : list Notes.Note) : Prop :=
  StronglySorted (fun a b => Notes.updatedOr0 b <= Notes.updatedOr0 a) l.

End Spec.

(* ===================================================================== *)
(** * Sample data *)
(* ===================================================================== *)

Module Sample.
Import Sync Todos.

Definition task (key : string) (rank : Z) : Todo :=
  {| id := key; userId := "u"; text := JS.text key; completed := false;
     category := "Personal"; dueDate := None; order := Some rank;
     createdAt := Some 0 |}.

Definition A : Todo := task "A" 0.
Definition B : Todo := task "B" 1.
Definition C : Todo := task "C" 2.
Definition D : Todo := task "D" 3.

(** The tasks page of user [u] showing [l], with the text [t] typed in. *)
Definition pageTyped (l : list Todo) (t : JS.Text) : State :=
  {| user := Some {| uid := "u" |}; todos := l; newTodo := t;
     newCategory := "Personal"; newDueDate := "";
     filterCategory := "all"; showCompleted := true |}.

(** The same with an ASCII literal typed in. *)
Definition pageOf (l : list Todo) (s : string) : State :=
  pageTyped l (JS.text s).

(** A no-break space, a line separator, a byte order mark, an
    ideographic space and a blank. *)
Definition blanks : JS.Text := [160; 8232; 65279; 12288; 32]%N.

Definition signedOut : State :=
  {| user := None; todos := []; newTodo := JS.text "task";
     newCategory := "Personal"; newDueDate := "";
     filterCategory := "all"; showCompleted := true |}.

(** The notes page of user [u] with [t] typed as the title. *)
Definition notesOf (t : string) : Notes.State :=
  {| Notes.user := Some {| uid := "u" |}; Notes.notes := [];
     Notes.isDialogOpen := true; Notes.editingId := None;
     Notes.title := t; Notes.content := ""; Notes.tagInput := "";
     Notes.tags := [] |}.

(** A remote that accepts, and one that rejects, every call. *)
Definition accepts {Call : Type} (cs : list Call) : list Outcome :=
  map (fun _ => Fulfilled) cs.

Definition rejects {Call : Type} (cs : list Call) : list Outcome :=
  map (fun _ => Rejected) cs.

End Sample.

(* ===================================================================== *)
(** * Facts about the built-ins *)
(* ===================================================================== *)

Section ArrayFacts.
Context {A : Type}.
Import Spec.

Lemma skipn_nth_error (l : list A) (n : nat) (x : A) :
  nth_error l n = Some x -> skipn n l = x :: skipn (S n) l.
Proof.
  revert n; induction l as [|y l IH]; intros [|n] H; simpl in *; try discriminate.
  - now inversion H.
  - now apply IH.
Qed.

Lemma length_removeAt (l : list A) (i : nat) :
  (i < List.length l)%nat -> List.length (removeAt i l) = (List.length l - 1)%nat.
Proof.
  intros H. unfold removeAt.
  rewrite length_app, length_firstn, length_skipn. lia.
Qed.

Lemma defined_map_Some (l : list A) : JS.defined (map Some l) = Some l.
Proof.
  induction l as [|x l IH]; simpl; [reflexivity|]. now rewrite IH.
Qed.

(** What [arrayMove] does when the start position of the removal holds
    an element: that element is removed and put back at the clamped
    target position. *)
Lemma arrayMove_spec (l : list A) (from to : Z) (x : A) :
  let n := Z.of_nat (List.length l) in
  let s := JS.spliceStart n from in
  let p := JS.spliceStart (n - 1) (if to <? 0 then n + to else to) in
  nth_error l s = Some x ->
  JS.arrayMove l from to = map Some (insertAt p x (removeAt s l)).
Proof.
  intros n s p Hx.
  assert (Hs : (s < List.length l)%nat) by (apply nth_error_Some; congruence).
  unfold JS.arrayMove, JS.splice.
  rewrite length_map. fold n. fold s.
  replace (Z.to_nat (Z.min (Z.max 1 0) (n - Z.of_nat s))) with 1%nat by (unfold n; lia).
  assert (Hmoved : nth 0 (firstn 1 (skipn s (map Some l))) None = Some x).
  { rewrite (skipn_map Some s l), (skipn_nth_error l s x Hx). reflexivity. }
  rewrite Hmoved. cbn [app snd].
  assert (Hlen : Z.of_nat (List.length (firstn s (map Some l) ++ skipn (s + 1) (map Some l))) = n - 1).
  { rewrite length_app, length_firstn, length_skipn, length_map. unfold n. lia. }
  rewrite Hlen. fold p.
  assert (Hp : (Z.of_nat p <= n - 1)).
  { unfold p, JS.spliceStart.
    generalize (if to <? 0 then n + to else to); intros t.
    destruct (Z.ltb_spec t 0); unfold n; lia. }
  replace (Z.to_nat (Z.min (Z.max 0 0) (n - 1 - Z.of_nat p))) with 0%nat by lia.
  rewrite Nat.add_0_r.
  unfold insertAt, removeAt.
  replace (s + 1)%nat with (S s) by lia.
  rewrite (firstn_map Some s l), (skipn_map Some (S s) l), <- map_app.
  rewrite firstn_map, skipn_map, map_app. reflexivity.
Qed.

(** With both indices inside the array, [arrayMove] is array-move. *)
Lemma arrayMove_in_bounds (l : list A) (i j : nat) :
  (i < List.length l)%nat -> (j < List.length l)%nat ->
  JS.arrayMove l (Z.of_nat i) (Z.of_nat j) = map Some (moveElement l i j).
Proof.
  intros Hi Hj. unfold moveElement.
  destruct (nth_error l i) as [x|] eqn:Hx; [|apply nth_error_None in Hx; lia].
  rewrite (arrayMove_spec l (Z.of_nat i) (Z.of_nat j) x).
  - f_equal. f_equal; unfold JS.spliceStart.
    + destruct (Z.of_nat j <? 0) eqn:E; [lia|]. rewrite E. lia.
    + destruct (Z.of_nat i <? 0) eqn:E; [lia|]. f_equal. lia.
  - unfold JS.spliceStart. destruct (Z.of_nat i <? 0) eqn:E; [lia|].
    replace (Z.to_nat (Z.min (Z.of_nat i) (Z.of_nat (List.length l)))) with i by lia.
    exact Hx.
Qed.

Lemma findIndexFrom_bounds (p : A -> bool) (l : list A) (k : Z) :
  JS.findIndexFrom p l k = -1 \/
  k <= JS.findIndexFrom p l k < k + Z.of_nat (List.length l).
Proof.
  revert k; induction l as [|x l IH]; intros k; simpl; [now left|].
  destruct (p x); [right; lia|].
  destruct (IH (k + 1)) as [H|H]; [now left | right; lia].
Qed.

(** On a non-empty array, with indices found by [findIndex], the moved
    array has no [undefined] slot. *)
Lemma arrayMove_findIndex_defined (l : list A) (p q : A -> bool) :
  l <> [] ->
  exists l', JS.arrayMove l (JS.findIndex p l) (JS.findIndex q l) = map Some l'.
Proof.
  intros Hne.
  set (from := JS.findIndex p l).
  set (n := Z.of_nat (List.length l)).
  assert (Hn : 0 < n) by (unfold n; destruct l; simpl; [congruence | lia]).
  assert (Hs : (JS.spliceStart n from < List.length l)%nat).
  { unfold JS.spliceStart.
    destruct (findIndexFrom_bounds p l 0) as [H|H]; fold (JS.findIndex p l) in H;
      fold from in H; destruct (from <? 0) eqn:E; unfold n in *; lia. }
  destruct (nth_error l (JS.spliceStart n from)) as [x|] eqn:Hx;
    [|apply nth_error_None in Hx; lia].
  eexists. apply (arrayMove_spec l from _ x). exact Hx.
Qed.

Lemma mapFrom_length {B : Type} (f : A -> Z -> B) (l : list A) (k : Z) :
  List.length (JS.mapFrom f l k) = List.length l.
Proof.
  revert k; induction l as [|x l IH]; intros k; simpl; [reflexivity|].
  now rewrite IH.
Qed.

Lemma mapFrom_nth_error {B : Type} (f : A -> Z -> B) (l : list A) (k : Z) (r : nat) :
  nth_error (JS.mapFrom f l k) r =
  option_map (fun x => f x (k + Z.of_nat r)) (nth_error l r).
Proof.
  revert k r; induction l as [|x l IH]; intros k [|r]; simpl; try reflexivity.
  - now rewrite Z.add_0_r.
  - rewrite IH. destruct (nth_error l r); simpl; [|reflexivity].
    do 2 f_equal. lia.
Qed.

(** [mapi] as a map over the ranked elements. *)
Lemma mapFrom_ranked {B : Type} (f : A -> Z -> B) (l : list A) (k : nat) :
  JS.mapFrom f l (Z.of_nat k) =
  map (fun rx => f (snd rx) (Z.of_nat (fst rx))) (combine (seq k (List.length l)) l).
Proof.
  revert k; induction l as [|x l IH]; intros k; simpl; [reflexivity|].
  f_equal. replace (Z.of_nat k + 1) with (Z.of_nat (S k)) by lia. apply IH.
Qed.

End ArrayFacts.

Section Sorting.
Context {A : Type} (cmp : A -> A -> Z) (key : A -> Z).
Hypothesis cmp_key : forall a b, cmp a b = key a - key b.

Lemma sortInsert_perm (x : A) (l : list A) :
  Permutation (JS.sortInsert cmp x l) (x :: l).
Proof.
  induction l as [|y l IH]; simpl; [reflexivity|].
  destruct (cmp x y <=? 0); [reflexivity|].
  rewrite IH. apply perm_swap.
Qed.

Lemma sort_perm (l : list A) : Permutation (JS.sort cmp l) l.
Proof.
  induction l as [|x l IH]; simpl; [reflexivity|].
  rewrite sortInsert_perm. now apply perm_skip.
Qed.

Lemma sortInsert_sorted (x : A) (l : list A) :
  StronglySorted (fun a b => key a <= key b) l ->
  StronglySorted (fun a b => key a <= key b) (JS.sortInsert cmp x l).
Proof.
  induction l as [|y l IH]; intros Hs; simpl.
  - constructor; constructor.
  - inversion Hs as [|? ? Hs' Hall]; subst.
    destruct (Z.leb_spec (cmp x y) 0) as [Hle|Hgt]; rewrite cmp_key in *.
    + constructor; [exact Hs|]. constructor; [lia|].
      eapply Forall_impl; [|exact Hall]. intros b Hb. simpl in Hb. lia.
    + constructor; [now apply IH|].
      eapply Permutation_Forall; [symmetry; apply sortInsert_perm|].
      constructor; [lia | exact Hall].
Qed.

Lemma sort_sorted (l : list A) :
  StronglySorted (fun a b => key a <= key b) (JS.sort cmp l).
Proof.
  induction l as [|x l IH]; simpl; [constructor|].
  now apply sortInsert_sorted.
Qed.

End Sorting.

Lemma StronglySorted_weaken {A : Type} (R S : A -> A -> Prop) (l : list A) :
  (forall a b, R a b -> S a b) -> StronglySorted R l -> StronglySorted S l.
Proof.
  intros HRS H. induction H as [|x l Hs IH Hall]; constructor; [exact IH|].
  eapply Forall_impl; [|exact Hall]. intros b. apply HRS.
Qed.

(* ===================================================================== *)
(** * Keys of the tasks at rest *)
(* ===================================================================== *)

Section Keys.
Import Sync Todos Spec.

(** Leaving documents out keeps the remaining keys distinct. *)
Lemma filter_distinct_keys (keep : Doc -> bool) (ds : list Doc) :
  NoDup (map doc_id ds) -> NoDup (map doc_id (filter keep ds)).
Proof.
  induction ds as [|d ds IH]; intros Hnd; [constructor|].
  cbn [map filter] in *. apply NoDup_cons_iff in Hnd. destruct Hnd as [Hfresh Hrest].
  destruct (keep d); [|exact (IH Hrest)].
  cbn [map]. apply NoDup_cons_iff. split; [|exact (IH Hrest)].
  intros Hin. apply Hfresh.
  apply in_map_iff in Hin. destruct Hin as [d' [Hkey Hd']].
  apply in_map_iff. exists d'. split; [exact Hkey|].
  apply filter_In in Hd'. exact (proj1 Hd').
Qed.

Lemma Forall_filter_keep {A : Type} (P : A -> Prop) (p : A -> bool) (l : list A) :
  Forall P l -> Forall P (filter p l).
Proof.
  intros H. apply Forall_forall. intros x Hx. apply filter_In in Hx.
  rewrite Forall_forall in H. apply H. tauto.
Qed.

Lemma to_uint_nonnil (n : nat) : Nat.to_uint n <> Decimal.Nil.
Proof.
  pose proof (DecimalNat.Unsigned.to_of (Nat.to_uint n)) as H.
  rewrite DecimalNat.Unsigned.of_to in H. rewrite H.
  apply DecimalFacts.unorm_nonnil.
Qed.

Lemma autoId_inj (n m : nat) : autoId n = autoId m -> n = m.
Proof.
  unfold autoId. simpl. intros H. inversion H as [H'].
  apply DecimalNat.Unsigned.to_uint_inj.
  apply (f_equal NilZero.uint_of_string) in H'.
  rewrite !NilZero.usu in H' by apply to_uint_nonnil.
  now inversion H'.
Qed.

Lemma keysIssued_start : keysIssued {| docs := []; issued := 0 |}.
Proof. split; constructor. Qed.

Lemma serve_keys (serverNow : Date) (r : Remote) (c : Call) :
  keysIssued r -> keysIssued (fst (serve serverNow r c)).
Proof.
  intros [Hnd Hall]. destruct c as [coll f | coll key p | coll key]; simpl.
  - split; simpl.
    + rewrite map_app. simpl.
      apply NoDup_app; [exact Hnd | repeat constructor; intros [] | ].
      intros x Hx [Hx'|[]]. subst x.
      apply in_map_iff in Hx. destruct Hx as [d [Hd Hin]].
      rewrite Forall_forall in Hall. destruct (Hall d Hin) as [k [Hk Hid]].
      rewrite Hid in Hd. apply autoId_inj in Hd. lia.
    + apply Forall_app. split.
      * eapply Forall_impl; [|exact Hall]. intros d [k [Hk Hid]].
        exists k. split; [lia | exact Hid].
      * constructor; [|constructor]. exists (issued r). split; [lia | reflexivity].
  - destruct (hasDoc key r); [|split; assumption]. simpl.
    assert (E : map doc_id
                  (map (fun d => if String.eqb (doc_id d) key
                                 then {| doc_id := doc_id d;
                                         doc_data := applyPatch p (doc_data d) |}
                                 else d) (docs r)) = map doc_id (docs r)).
    { rewrite map_map. apply map_ext. intros d.
      destruct (String.eqb (doc_id d) key); reflexivity. }
    split; simpl.
    + rewrite E. exact Hnd.
    + apply Forall_map. eapply Forall_impl; [|exact Hall].
      intros d Hd. destruct (String.eqb (doc_id d) key); exact Hd.
  - split; simpl.
    + apply filter_distinct_keys. exact Hnd.
    + apply Forall_filter_keep. exact Hall.
Qed.

Lemma serveAll_keys (serverNow : Date) (cs : list Call) (r : Remote) :
  keysIssued r -> keysIssued (fst (serveAll serverNow r cs)).
Proof.
  revert r; induction cs as [|c cs IH]; intros r Hr; simpl; [exact Hr|].
  pose proof (serve_keys serverNow r c Hr) as H1.
  destruct (serve serverNow r c) as [r1 o]. simpl in H1.
  pose proof (IH r1 H1) as H2.
  destruct (serveAll serverNow r1 cs) as [r2 os]. exact H2.
Qed.

Lemma applyEffects_user (es : list Effect) (st : State) :
  user (applyEffects st es) = user st.
Proof.
  unfold applyEffects. revert st; induction es as [|e es IH]; intros st; simpl;
    [reflexivity|].
  rewrite IH. destruct e; reflexivity.
Qed.

Lemma perform_keys (serverNow : Date) (h : Handler) (sys : System) :
  keysIssued (remote sys) ->
  keysIssued (remote (perform serverNow h sys))
  /\ user (page (perform serverNow h sys)) = user (page sys).
Proof.
  revert sys; induction h as [es c | es cs k IH]; intros sys Hr; simpl.
  - split; [exact Hr | apply applyEffects_user].
  - pose proof (serveAll_keys serverNow cs (remote sys) Hr) as H1.
    destruct (serveAll serverNow (remote sys) cs) as [r outcomes]. simpl in H1.
    destruct (IH outcomes {| remote := r; page := applyEffects (page sys) es |} H1)
      as [H2 H3].
    split; [exact H2|]. rewrite H3. simpl. apply applyEffects_user.
Qed.

(** After an event the tasks shown have distinct keys. *)
Lemma deliver_keys (sys : System) (u : User) :
  keysIssued (remote sys) ->
  user (page sys) = Some u ->
  keysIssued (remote (deliver sys))
  /\ user (page (deliver sys)) = Some u
  /\ NoDup (map id (todos (page (deliver sys)))).
Proof.
  intros Hr Hu. unfold deliver. rewrite Hu. simpl.
  split; [exact Hr|]. split; [exact Hu|].
  eapply Permutation_NoDup.
  - apply Permutation_map. symmetry. apply sort_perm.
  - rewrite map_map. cbn [id toLocal]. unfold runQuery.
    apply filter_distinct_keys. exact (proj1 Hr).
Qed.

(** At rest the keys of the tasks shown are pairwise distinct. *)
Lemma atRest_keys (owner : string) (sys : System) :
  AtRest owner sys ->
  keysIssued (remote sys)
  /\ user (page sys) = Some {| uid := owner |}
  /\ NoDup (map id (todos (page sys))).
Proof.
  induction 1 as [| s now sys _ [Hr [Hu _]] | key now sys _ [Hr [Hu _]]
                  | event now sys _ [Hr [Hu Hnd]]].
  - split; [apply keysIssued_start|]. split; [reflexivity | constructor].
  - unfold create.
    destruct (perform_keys now (handleAdd (page (typeNewTodo s sys)) now)
                (typeNewTodo s sys) Hr) as [H1 H2].
    apply deliver_keys; [exact H1|]. rewrite H2. exact Hu.
  - unfold delete.
    destruct (perform_keys now (deleteTodo key) sys Hr) as [H1 H2].
    apply deliver_keys; [exact H1|]. rewrite H2. exact Hu.
  - unfold reorder. destruct (handleDragEnd (page sys) event) as [h|].
    + destruct (perform_keys now h sys Hr) as [H1 H2].
      apply deliver_keys; [exact H1|]. rewrite H2. exact Hu.
    + auto.
Qed.

End Keys.

(* ===================================================================== *)
(** * The tasks page: reordering *)
(* ===================================================================== *)

Section Reorder.
Import Sync Todos Spec.

Lemma findIndexFrom_key (l : list Todo) (k : Z) (i : nat) (a : Todo) :
  NoDup (map id l) ->
  nth_error l i = Some a ->
  JS.findIndexFrom (fun t => String.eqb (id t) (id a)) l k = k + Z.of_nat i.
Proof.
  revert k i; induction l as [|y l IH]; intros k [|i] Hnd Ha; simpl in *;
    try discriminate.
  - inversion Ha; subst. rewrite String.eqb_refl. lia.
  - inversion Hnd as [|? ? Hnotin Hnd']; subst.
    assert (Hneq : id y <> id a).
    { intros E. apply Hnotin. rewrite E. apply in_map.
      eapply nth_error_In; eassumption. }
    apply String.eqb_neq in Hneq. rewrite Hneq.
    rewrite (IH (k + 1) i Hnd' Ha). lia.
Qed.

Lemma findIndex_key (l : list Todo) (i : nat) (a : Todo) :
  NoDup (map id l) ->
  nth_error l i = Some a ->
  JS.findIndex (fun t => String.eqb (id t) (id a)) l = Z.of_nat i.
Proof.
  intros Hnd Ha. unfold JS.findIndex.
  now rewrite (findIndexFrom_key l 0 i a Hnd Ha).
Qed.

Lemma distinct_keys (l : list Todo) (i j : nat) (a b : Todo) :
  NoDup (map id l) ->
  nth_error l i = Some a -> nth_error l j = Some b -> i <> j ->
  id a <> id b.
Proof.
  intros Hnd Ha Hb Hij E. apply Hij.
  assert (Hi : (i < List.length (map id l))%nat).
  { rewrite length_map. apply nth_error_Some. congruence. }
  apply (proj1 (NoDup_nth_error (map id l)) Hnd i j Hi).
  rewrite (map_nth_error id i l Ha), (map_nth_error id j l Hb). now rewrite E.
Qed.

Lemma orderUpdates_rankUpdates (l : list Todo) : orderUpdates l = rankUpdates l.
Proof.
  unfold orderUpdates, rankUpdates, JS.mapi.
  exact (mapFrom_ranked _ l 0).
Qed.

Lemma length_rankUpdates (l : list Todo) :
  List.length (rankUpdates l) = List.length l.
Proof.
  unfold rankUpdates. rewrite length_map, length_combine, length_seq. lia.
Qed.

Lemma length_moveElement {A : Type} (l : list A) (i j : nat) :
  (j < List.length l)%nat ->
  List.length (moveElement l i j) = List.length l.
Proof.
  intros Hj. unfold moveElement.
  destruct (nth_error l i) as [x|] eqn:Hx; [|reflexivity].
  assert (Hi : (i < List.length l)%nat) by (apply nth_error_Some; congruence).
  unfold insertAt. rewrite length_app. simpl.
  rewrite length_firstn, length_skipn, length_removeAt by exact Hi. lia.
Qed.

(** The handler is defined on every page that shows at least one task. *)
Lemma handleDragEnd_total (st : State) (event : DragEndEvent) :
  todos st <> [] -> exists h, handleDragEnd st event = Some h.
Proof.
  intros Hne. unfold handleDragEnd.
  destruct (over event) as [o|]; [|eauto].
  destruct (String.eqb (active event) o); [eauto|].
  destruct (arrayMove_findIndex_defined (todos st)
              (fun t => String.eqb (id t) (active event))
              (fun t => String.eqb (id t) o) Hne) as [l' Hl'].
  rewrite Hl', defined_map_Some. eauto.
Qed.

(** C1. A drag that moves the task at index [i] onto the task at index
    [j], with [i <> j] and both in the list (whose keys are distinct):
    before anything is awaited the local list is replaced by the
    array-move result, and the calls sent are exactly one partial
    update per task of the new list, setting [order] to its rank
    [0 .. n-1]; nothing else is sent afterwards. *)
Theorem handleDragEnd_reorders (st : State) (i j : nat) (a b : Todo) :
  NoDup (map id (todos st)) ->
  nth_error (todos st) i = Some a ->
  nth_error (todos st) j = Some b ->
  i <> j ->
  let newOrder := moveElement (todos st) i j in
  exists k,
    handleDragEnd st {| active := id a; over := Some (id b) |}
    = Some (Await [SetTodos newOrder] (rankUpdates newOrder) k)
    /\ todos (applyEffects st [SetTodos newOrder]) = newOrder
    /\ List.length (rankUpdates newOrder) = List.length (todos st)
    /\ (forall r t, nth_error newOrder r = Some t ->
          nth_error (rankUpdates newOrder) r
          = Some (UpdateDoc "todos" (id t) (PatchOrder (Z.of_nat r))))
    /\ (forall answer outcomes, calls (run answer (k outcomes)) = []).
Proof.
  intros Hnd Ha Hb Hij newOrder.
  assert (Hi : (i < List.length (todos st))%nat) by (apply nth_error_Some; congruence).
  assert (Hj : (j < List.length (todos st))%nat) by (apply nth_error_Some; congruence).
  pose proof (distinct_keys _ _ _ _ _ Hnd Ha Hb Hij) as Hneq.
  apply String.eqb_neq in Hneq.
  unfold handleDragEnd. cbn [over active]. rewrite Hneq.
  rewrite (findIndex_key _ _ _ Hnd Ha), (findIndex_key _ _ _ Hnd Hb).
  rewrite (arrayMove_in_bounds _ _ _ Hi Hj), defined_map_Some.
  fold newOrder. rewrite orderUpdates_rankUpdates.
  eexists. split; [reflexivity|].
  split; [reflexivity|].
  split; [rewrite length_rankUpdates; apply length_moveElement; exact Hj|].
  split.
  - intros r t Hr. rewrite <- orderUpdates_rankUpdates.
    unfold orderUpdates, JS.mapi. rewrite mapFrom_nth_error, Hr. reflexivity.
  - intros answer outcomes. cbv beta.
    destruct (JS.every fulfilled outcomes); reflexivity.
Qed.

(** The instance of the specification: in [A,B,C,D], moving index 0 to
    index 2 gives [B,C,A,D] and the four updates B:0, C:1, A:2, D:3. *)
Lemma handleDragEnd_reorders_ABCD :
  exists k,
    handleDragEnd (Sample.pageOf [Sample.A; Sample.B; Sample.C; Sample.D] "")
                  {| active := "A"; over := Some "C" |}
    = Some (Await [SetTodos [Sample.B; Sample.C; Sample.A; Sample.D]]
              [UpdateDoc "todos" "B" (PatchOrder 0);
               UpdateDoc "todos" "C" (PatchOrder 1);
               UpdateDoc "todos" "A" (PatchOrder 2);
               UpdateDoc "todos" "D" (PatchOrder 3)] k)
    /\ (forall answer outcomes, calls (run answer (k outcomes)) = []).
Proof.
  destruct (handleDragEnd_reorders
              (Sample.pageOf [Sample.A; Sample.B; Sample.C; Sample.D] "")
              0 2 Sample.A Sample.C) as [k [H1 [_ [_ [_ H5]]]]].
  - simpl. repeat (constructor; [simpl; intuition discriminate|]). constructor.
  - reflexivity.
  - reflexivity.
  - discriminate.
  - exists k. split; [exact H1 | exact H5].
Defined.

(** C9. Dropping a task on itself: nothing is sent and the list of
    tasks stays as it is. *)
Theorem handleDragEnd_same_item (st : State) (key : string) :
  exists h,
    handleDragEnd st {| active := key; over := Some key |} = Some h
    /\ forall answer,
         calls (run answer h) = []
         /\ effects (run answer h) = []
         /\ todos (applyEffects st (effects (run answer h))) = todos st.
Proof.
  unfold handleDragEnd. cbn [over active]. rewrite String.eqb_refl.
  eexists. split; [reflexivity|]. intros answer. repeat split.
Qed.

Lemma every_fulfilled_false (outcomes : list Outcome) :
  In Rejected outcomes -> JS.every fulfilled outcomes = false.
Proof.
  induction outcomes as [|o l IH]; intros H; simpl in *; [contradiction|].
  destruct H as [-> | H]; [reflexivity|].
  rewrite (IH H). apply andb_false_r.
Qed.

(** The handler on a drag between two tasks of a list with distinct
    keys. *)
Lemma handleDragEnd_at (st : State) (i j : nat) (a b : Todo) :
  NoDup (map id (todos st)) ->
  nth_error (todos st) i = Some a ->
  nth_error (todos st) j = Some b ->
  i <> j ->
  handleDragEnd st {| active := id a; over := Some (id b) |}
  = Some (Await [SetTodos (moveElement (todos st) i j)]
            (orderUpdates (moveElement (todos st) i j))
            (fun outcomes =>
               if JS.every fulfilled outcomes then Return [] Resolves
               else Return [Notify (ToastError "Failed to reorder tasks")] Resolves)).
Proof.
  intros Hnd Ha Hb Hij.
  assert (Hi : (i < List.length (todos st))%nat) by (apply nth_error_Some; congruence).
  assert (Hj : (j < List.length (todos st))%nat) by (apply nth_error_Some; congruence).
  pose proof (distinct_keys _ _ _ _ _ Hnd Ha Hb Hij) as Hneq.
  apply String.eqb_neq in Hneq.
  unfold handleDragEnd. cbn [over active]. rewrite Hneq.
  rewrite (findIndex_key _ _ _ Hnd Ha), (findIndex_key _ _ _ Hnd Hb).
  now rewrite (arrayMove_in_bounds _ _ _ Hi Hj), defined_map_Some.
Qed.

(** C7. A reorder (the task at index [i] dragged onto the task at index
    [j], [i <> j], in a list with distinct keys) in whose batch of
    order updates at least one fails: exactly one notification is
    shown, the error of the whole reorder; the batch sent is the rank
    updates of the array-move result; and the list of tasks stays the
    array-move result of the list before the drag: it is not set back. *)
Theorem handleDragEnd_failure (st : State) (i j : nat) (a b : Todo)
        (answer : list Call -> list Outcome) :
  NoDup (map id (todos st)) ->
  nth_error (todos st) i = Some a ->
  nth_error (todos st) j = Some b ->
  i <> j ->
  let newOrder := moveElement (todos st) i j in
  In Rejected (answer (rankUpdates newOrder)) ->
  exists h,
    handleDragEnd st {| active := id a; over := Some (id b) |} = Some h
    /\ batch h = rankUpdates newOrder
    /\ calls (run answer h) = rankUpdates newOrder
    /\ effects (run answer h)
       = [SetTodos newOrder; Notify (ToastError "Failed to reorder tasks")]
    /\ toasts (effects (run answer h)) = [ToastError "Failed to reorder tasks"]
    /\ todos (applyEffects st (effects (run answer h))) = newOrder
    /\ completion (run answer h) = Resolves.
Proof.
  intros Hnd Ha Hb Hij newOrder Hrej.
  eexists. split; [apply (handleDragEnd_at st i j a b Hnd Ha Hb Hij)|].
  fold newOrder. rewrite orderUpdates_rankUpdates.
  cbn [batch run effects calls completion].
  rewrite (every_fulfilled_false _ Hrej).
  cbn [run effects calls completion]. rewrite List.app_nil_r.
  repeat split.
Qed.

(** In [A,B,C,D], index 0 dragged onto index 2 while the remote rejects
    every update: one error is shown and the list stays [B,C,A,D]. *)
Lemma handleDragEnd_failure_witness :
  exists h,
    handleDragEnd (Sample.pageOf [Sample.A; Sample.B; Sample.C; Sample.D] "")
                  {| active := "A"; over := Some "C" |} = Some h
    /\ toasts (effects (run Sample.rejects h)) = [ToastError "Failed to reorder tasks"]
    /\ todos (applyEffects
                (Sample.pageOf [Sample.A; Sample.B; Sample.C; Sample.D] "")
                (effects (run Sample.rejects h)))
       = [Sample.B; Sample.C; Sample.A; Sample.D].
Proof.
  destruct (handleDragEnd_failure
              (Sample.pageOf [Sample.A; Sample.B; Sample.C; Sample.D] "")
              0 2 Sample.A Sample.C Sample.rejects)
    as [h [Hh [_ [_ [_ [Ht [Hs _]]]]]]].
  - simpl. repeat (constructor; [simpl; intuition discriminate|]). constructor.
  - reflexivity.
  - reflexivity.
  - discriminate.
  - simpl. auto.
  - exists h. split; [exact Hh|]. split; [exact Ht | exact Hs].
Defined.

End Reorder.

(* ===================================================================== *)
(** * Create, update and delete *)
(* ===================================================================== *)

Section Mutations.
Import Sync Spec.

Lemma truthy_nonempty (s : string) : s <> "" -> JS.truthy s = true.
Proof. destruct s; [congruence | reflexivity]. Qed.

Lemma truthyText_nonempty (t : JS.Text) : t <> [] -> JS.truthyText t = true.
Proof. destruct t; [congruence | reflexivity]. Qed.

(** C8. Create, update and delete never set the snapshot: whatever the
    remote answers, and whatever the page holds when the handler's
    effects are applied, the list of entities is the one it held. *)
Theorem mutations_keep_snapshot :
  (forall st now, keepsTodos (Todos.handleAdd st now))
  /\ (forall key completed, keepsTodos (Todos.toggleTodo key completed))
  /\ (forall key, keepsTodos (Todos.deleteTodo key))
  /\ (forall st now later, keepsNotes (Notes.handleSubmit st now later))
  /\ (forall key, keepsNotes (Notes.handleDelete key)).
Proof.
  repeat split.
  - intros st now answer cur. unfold Todos.handleAdd.
    destruct (Todos.user st); [|reflexivity].
    destruct (JS.truthyText _); [|reflexivity]. simpl.
    destruct (JS.every fulfilled _); reflexivity.
  - intros key completed answer cur. simpl.
    destruct (JS.every fulfilled _); reflexivity.
  - intros key answer cur. simpl.
    destruct (JS.every fulfilled _); reflexivity.
  - intros st now later answer cur. unfold Notes.handleSubmit.
    destruct (Notes.user st); [|reflexivity].
    destruct (JS.truthy _); [|reflexivity]. simpl.
    destruct (Notes.editing st); simpl;
      destruct (JS.every fulfilled _); reflexivity.
  - intros key answer cur. simpl.
    destruct (JS.every fulfilled _); reflexivity.
Qed.

(** C4, as the pages do it.  A valid create (a user is signed in and the
    required field is not empty: the task text once [trim] has taken
    off its white space, Unicode white space included; the note title)
    sends exactly one remote create with the owner, the payload and a
    creation time read from the client's clock; the handler goes on only
    when the outcome is known: acknowledged, it clears the form and
    shows the success, rejected, it shows the failure. *)
Theorem create_valid :
  (forall (st : Todos.State) (now : Date) (u : User),
      Todos.user st = Some u ->
      JS.trim (Todos.newTodo st) <> [] ->
      let fields :=
        {| Todos.new_userId := uid u;
           Todos.new_text := JS.trim (Todos.newTodo st);
           Todos.new_completed := false;
           Todos.new_category := Todos.newCategory st;
           Todos.new_dueDate :=
             if JS.truthy (Todos.newDueDate st) then Some (Todos.newDueDate st) else None;
           Todos.new_order := Z.of_nat (List.length (Todos.todos st));
           Todos.new_createdAt := ClientDate now |} in
      exists k,
        Todos.handleAdd st now = Await [] [Todos.AddDoc "todos" fields] k
        /\ k [Fulfilled]
           = Return [Todos.SetNewTodo []; Todos.SetNewDueDate "";
                     Todos.Notify (ToastSuccess "Task added")] Resolves
        /\ k [Rejected]
           = Return [Todos.Notify (ToastError "Failed to add task")] Resolves
        /\ forall answer,
             calls (run answer (Todos.handleAdd st now)) = [Todos.AddDoc "todos" fields])
  /\
  (forall (st : Notes.State) (now later : Date) (u : User),
      Notes.user st = Some u ->
      Notes.title st <> "" ->
      Notes.editing st = None ->
      let fields :=
        {| Notes.new_userId := uid u; Notes.new_title := Notes.title st;
           Notes.new_content := Notes.content st; Notes.new_tags := Notes.tags st;
           Notes.new_createdAt := ClientDate now;
           Notes.new_updatedAt := ClientDate later |} in
      exists k,
        Notes.handleSubmit st now later = Await [] [Notes.AddDoc "notes" fields] k
        /\ k [Fulfilled]
           = Return (Notes.Notify (ToastSuccess "Note created") :: Notes.resetForm
                     ++ [Notes.SetIsDialogOpen false]) Resolves
        /\ k [Rejected]
           = Return [Notes.Notify (ToastError "Failed to save note")] Resolves
        /\ forall answer,
             calls (run answer (Notes.handleSubmit st now later))
             = [Notes.AddDoc "notes" fields]).
Proof.
  split.
  - intros st now u Hu Ht fields. unfold Todos.handleAdd. rewrite Hu.
    rewrite (truthyText_nonempty _ Ht). simpl negb. cbv iota.
    eexists. split; [reflexivity|]. split; [reflexivity|]. split; [reflexivity|].
    intros answer. simpl. destruct (JS.every fulfilled _); reflexivity.
  - intros st now later u Hu Ht He fields. unfold Notes.handleSubmit.
    rewrite Hu, (truthy_nonempty _ Ht), He. simpl negb. cbv iota.
    eexists. split; [reflexivity|]. split; [reflexivity|]. split; [reflexivity|].
    intros answer. simpl. destruct (JS.every fulfilled _); reflexivity.
Qed.

(** A text wrapped in a no-break space, a line separator, a byte order
    mark, an ideographic space and blanks is sent without them. *)
Lemma create_valid_witness :
  (exists k,
      Todos.handleAdd
        (Sample.pageTyped [Sample.A]
           (Sample.blanks ++ JS.text "buy milk " ++ Sample.blanks)) 1000
      = Await [] [Todos.AddDoc "todos"
                    {| Todos.new_userId := "u";
                       Todos.new_text := JS.text "buy milk";
                       Todos.new_completed := false;
                       Todos.new_category := "Personal";
                       Todos.new_dueDate := None; Todos.new_order := 1;
                       Todos.new_createdAt := ClientDate 1000 |}] k)
  /\ (exists k,
      Notes.handleSubmit (Sample.notesOf "title") 1000 1001
      = Await [] [Notes.AddDoc "notes"
                    {| Notes.new_userId := "u"; Notes.new_title := "title";
                       Notes.new_content := ""; Notes.new_tags := [];
                       Notes.new_createdAt := ClientDate 1000;
                       Notes.new_updatedAt := ClientDate 1001 |}] k).
Proof.
  destruct create_valid as [HT HN]. split.
  - destruct (HT (Sample.pageTyped [Sample.A]
                    (Sample.blanks ++ JS.text "buy milk " ++ Sample.blanks))
                 1000 {| uid := "u" |}) as [k [H _]].
    + reflexivity.
    + vm_compute. discriminate.
    + exists k. exact H.
  - destruct (HN (Sample.notesOf "title") 1000 1001 {| uid := "u" |})
      as [k [H _]].
    + reflexivity.
    + discriminate.
    + reflexivity.
    + exists k. exact H.
Defined.

(** The creation time of C4 does not come from the service: the create
    carries the client's own clock reading, not the sentinel for the
    server time, and what is stored does not depend on the server's
    clock. *)
Lemma create_time_is_client :
  createTimes (calls (run Sample.accepts
                        (Todos.handleAdd (Sample.pageOf [] "task") 1000)))
  = [ClientDate 1000]
  /\ ~ Forall (fun t => t = ServerTimestamp)
         (createTimes (calls (run Sample.accepts
                                (Todos.handleAdd (Sample.pageOf [] "task") 1000))))
  /\ storeTime 5000 (ClientDate 1000) = storeTime 9000 (ClientDate 1000).
Proof.
  split; [reflexivity|]. split; [|reflexivity].
  intros H. vm_compute in H. inversion H as [|? ? Hd _]. discriminate Hd.
Qed.

(** C5, as the pages do it.  A create with an empty required field
    (the task text once [trim] has taken off its white space, Unicode
    white space included; the note title) sends nothing and ends at
    once without an error: no effect, no notification, and the handler
    resolves. *)
Theorem create_empty_is_silent :
  (forall (st : Todos.State) (now : Date),
      JS.trim (Todos.newTodo st) = [] ->
      Todos.handleAdd st now = Return [] Resolves
      /\ forall answer,
           calls (run answer (Todos.handleAdd st now)) = []
           /\ completion (run answer (Todos.handleAdd st now)) = Resolves)
  /\
  (forall (st : Notes.State) (now later : Date),
      Notes.title st = "" ->
      Notes.handleSubmit st now later = Return [] Resolves
      /\ forall answer,
           calls (run answer (Notes.handleSubmit st now later)) = []
           /\ completion (run answer (Notes.handleSubmit st now later)) = Resolves).
Proof.
  split.
  - intros st now Ht.
    assert (H : Todos.handleAdd st now = Return [] Resolves).
    { unfold Todos.handleAdd. rewrite Ht. destruct (Todos.user st); reflexivity. }
    rewrite H. split; [reflexivity|]. intros answer; split; reflexivity.
  - intros st now later Ht.
    assert (H : Notes.handleSubmit st now later = Return [] Resolves).
    { unfold Notes.handleSubmit. rewrite Ht. destruct (Notes.user st); reflexivity. }
    rewrite H. split; [reflexivity|]. intros answer; split; reflexivity.
Qed.

(** A text of Unicode white space only is empty once trimmed. *)
Lemma create_empty_is_silent_witness :
  Todos.handleAdd (Sample.pageTyped [Sample.A] Sample.blanks) 1000
  = Return [] Resolves
  /\ Notes.handleSubmit (Sample.notesOf "") 1000 1001 = Return [] Resolves.
Proof.
  destruct create_empty_is_silent as [HT HN]. split.
  - apply (HT (Sample.pageTyped [Sample.A] Sample.blanks) 1000). reflexivity.
  - apply (HN (Sample.notesOf "") 1000 1001). reflexivity.
Defined.

(** A create with an empty task text does not fail with a validation
    error: the handler resolves. *)
Lemma create_empty_no_error :
  ~ failsWith Sample.accepts (Todos.handleAdd (Sample.pageOf [] "") 1000)
      ValidationError.
Proof. unfold failsWith. simpl. discriminate. Qed.

(** C6, as the pages do it.  Without a signed-in user the subscription
    effect does nothing: no listener, no error, and an event of the
    remote leaves the page as it is. *)
Theorem subscribe_without_user :
  Todos.subscribeEffect None = NoSubscription
  /\ Notes.subscribeEffect None = NoSubscription
  /\ Passwords.subscribeEffect None = NoSubscription
  /\ forall sys, Todos.user (Todos.page sys) = None -> Todos.deliver sys = sys.
Proof.
  repeat split. intros sys H. unfold Todos.deliver. now rewrite H.
Qed.

Lemma subscribe_without_user_witness :
  Todos.deliver {| Todos.remote := {| Todos.docs := []; Todos.issued := 0 |};
                   Todos.page := Sample.signedOut |}
  = {| Todos.remote := {| Todos.docs := []; Todos.issued := 0 |};
       Todos.page := Sample.signedOut |}.
Proof.
  apply (proj2 (proj2 (proj2 subscribe_without_user))). reflexivity.
Defined.

(** Subscribing without a user does not fail with [Unauthenticated]. *)
Lemma subscribe_without_user_no_error :
  Todos.subscribeEffect None <> SubscribeThrows Unauthenticated
  /\ Passwords.subscribeEffect None <> SubscribeThrows Unauthenticated.
Proof. split; discriminate. Qed.

End Mutations.

(* ===================================================================== *)
(** * Snapshot events *)
(* ===================================================================== *)

Section Snapshots.
Import Sync Spec.

(** C2, as the pages do it.  Whatever calls the remote has served and
    whatever the page held before, the next event replaces the snapshot
    by the event's full list of documents, each mapped into the local
    shape with its timestamps decoded, and sorted by the page's key
    (tasks by increasing [order], notes by decreasing [updatedAt]): the
    snapshot holds exactly the entities of the event, in sorted order. *)
Theorem snapshot_replaces_sorted :
  (forall (r0 : Todos.Remote) (ops : list Todos.Call) (serverNow : Date)
          (st : Todos.State) (u : User),
      Todos.user st = Some u ->
      let r := fst (Todos.serveAll serverNow r0 ops) in
      let st' := Todos.page (Todos.deliver {| Todos.remote := r; Todos.page := st |}) in
      let event := map Todos.toLocal (Todos.runQuery (uid u) r) in
      Todos.todos st' = JS.sort Todos.byOrder event
      /\ Permutation (Todos.todos st') event
      /\ inOrder (Todos.todos st'))
  /\
  (forall (st : Notes.State) (docs : list Notes.Doc),
      let st' := Notes.applyEffects st (Notes.onSnapshot docs) in
      let event := map Notes.toLocal docs in
      Notes.notes st' = JS.sort Notes.byUpdatedDesc event
      /\ Permutation (Notes.notes st') event
      /\ newestFirst (Notes.notes st')).
Proof.
  split.
  - intros r0 ops serverNow st u Hu r st' event.
    assert (E : Todos.todos st' = JS.sort Todos.byOrder event).
    { unfold st', Todos.deliver. cbn [Todos.page Todos.remote]. rewrite Hu.
      reflexivity. }
    rewrite E. split; [reflexivity|]. split.
    + apply sort_perm.
    + apply (sort_sorted Todos.byOrder Todos.orderOr0). reflexivity.
  - intros st docs st' event.
    assert (E : Notes.notes st' = JS.sort Notes.byUpdatedDesc event) by reflexivity.
    rewrite E. split; [reflexivity|]. split.
    + apply sort_perm.
    + unfold newestFirst.
      pose proof (sort_sorted Notes.byUpdatedDesc (fun n => - Notes.updatedOr0 n)) as H.
      eapply StronglySorted_weaken; [|apply H].
      * intros a b Hab. simpl in Hab. lia.
      * intros a b. unfold Notes.byUpdatedDesc. lia.
Qed.

(** After two creates and a reorder, the remote lists the documents by
    their time of creation while the page lists them by [order]. *)
Lemma snapshot_replaces_sorted_witness :
  let sys := Todos.reorder {| Todos.active := "doc0"; Todos.over := Some "doc1" |} 2
               (Todos.create (JS.text "b") 1 (Todos.create (JS.text "a") 0 (Todos.start "u"))) in
  map Todos.id (Todos.todos (Todos.page (Todos.deliver sys))) = ["doc1"; "doc0"]
  /\ Permutation (Todos.todos (Todos.page (Todos.deliver sys)))
       (map Todos.toLocal (Todos.runQuery "u" (Todos.remote sys))).
Proof.
  intros sys.
  destruct snapshot_replaces_sorted as [HT _].
  destruct (HT (Todos.remote sys) [] 2 (Todos.page sys) {| uid := "u" |})
    as [_ [HP _]]; [reflexivity|].
  split; [reflexivity | exact HP].
Defined.

(** The snapshot after an event is not always the event's list as the
    remote lists it. *)
Lemma snapshot_is_not_event_list :
  let sys := Todos.reorder {| Todos.active := "doc0"; Todos.over := Some "doc1" |} 2
               (Todos.create (JS.text "b") 1 (Todos.create (JS.text "a") 0 (Todos.start "u"))) in
  map Todos.id (Todos.todos (Todos.page (Todos.deliver sys))) = ["doc1"; "doc0"]
  /\ map Todos.id (map Todos.toLocal (Todos.runQuery "u" (Todos.remote sys)))
     = ["doc0"; "doc1"]
  /\ Todos.todos (Todos.page (Todos.deliver sys))
     <> map Todos.toLocal (Todos.runQuery "u" (Todos.remote sys)).
Proof.
  intros sys. split; [reflexivity|]. split; [reflexivity|].
  intros E. apply (f_equal (map Todos.id)) in E. vm_compute in E. discriminate.
Qed.

(** C3 on the code: pairwise distinct [order] values at rest.  Create
    two tasks, delete the first, create a third, each time up to the
    next event: the state is at rest and the two tasks shown both have
    [order] 1. *)
Lemma create_after_delete_repeats_order :
  let sys := Todos.create (JS.text "c") 3
               (Todos.delete "doc0" 2
                  (Todos.create (JS.text "b") 1 (Todos.create (JS.text "a") 0 (Todos.start "u")))) in
  AtRest "u" sys
  /\ map Todos.id (Todos.todos (Todos.page sys)) = ["doc1"; "doc2"]
  /\ Todos.orders sys = [Some 1; Some 1]
  /\ ~ NoDup (Todos.orders sys).
Proof.
  intros sys. split; [repeat constructor|].
  split; [reflexivity|]. split; [reflexivity|].
  intros H. vm_compute in H. inversion H as [|? ? Hin _]. apply Hin. now left.
Qed.

End Snapshots.

(* ===================================================================== *)
(** * The password generator *)
(* ===================================================================== *)

Section Generator.
Import Passwords.













End Generator.
